(** * novice-validator-json: schema location and request extraction

    A shallow embedding of [src/index.ts] (package [@novice1/validator-json])
    and the properties of its three parts: [retrieveParametersValue] and
    [retrieveSchema] (the schema locator), [buildValueToValidate] (the request
    extractor) and [validatorJsonRequestHandler] (the middleware).

    Scope of the embedding.
    - Values are plain JavaScript data: the primitives, arrays, objects
      created by literals or [JSON.parse] (prototype [Object.prototype], data
      properties only) and functions, which are opaque and carry no own
      properties.  The two built-in prototype objects that a property path
      can reach through the inherited accessor [__proto__] are values too.
    - Numbers are integers; [NaN] and fractions are not represented.
    - Strings are sequences of bytes.  The path grammar only looks at the
      characters '.', '[' and ']', which are single code units both in
      UTF-16 and in UTF-8.
    - The logger is left out: its calls have no effect on the results.
    - The JSON-schema engine (Ajv) is an interface, see [AjvEngine]. *)

From Stdlib Require Import Ascii String ZArith.
From stdpp Require Import base option list strings gmap pretty.

Set Warnings "-register-all,-clear-no-such-hyp".

(** ** Values *)

Inductive builtin := ObjectPrototype | ArrayPrototype.

Inductive value :=
| VUndefined
| VNull
| VBool (b : bool)
| VNum (n : Z)
| VStr (s : string)
| VFun (name : string)
| VArr (elems : list value)
| VObj (fields : gmap string value)
| VBuiltin (p : builtin).

Global Instance value_inhabited : Inhabited value := populate VUndefined.

(** The results of [typeof]. *)
Inductive jstype := TUndefined | TObject | TBoolean | TNumber | TString | TFunction.

Global Instance jstype_eq_dec : EqDecision jstype.
Proof. solve_decision. Defined.

Definition typeof (v : value) : jstype :=
  match v with
  | VUndefined => TUndefined
  | VNull => TObject
  | VBool _ => TBoolean
  | VNum _ => TNumber
  | VStr _ => TString
  | VFun _ => TFunction
  | VArr _ | VObj _ | VBuiltin _ => TObject
  end.

(** [ToBoolean]: what [if (v)], [v && ...] and [!v] test. *)
Definition truthy (v : value) : bool :=
  match v with
  | VUndefined | VNull => false
  | VBool b => b
  | VNum n => negb (n =? 0)%Z
  | VStr s => negb (String.eqb s "")
  | VFun _ | VArr _ | VObj _ | VBuiltin _ => true
  end.

(** [Array.isArray]; [Array.prototype] is itself an array. *)
Definition isArray (v : value) : bool :=
  match v with
  | VArr _ | VBuiltin ArrayPrototype => true
  | _ => false
  end.

(** [v && typeof v === 'object'] *)
Definition is_object (v : value) : bool :=
  truthy v && bool_decide (typeof v = TObject).

(** An array index key: the canonical decimal numeral of a position below
    the length. *)
Definition array_index (k : string) (n : nat) : option nat :=
  List.find (λ i, String.eqb (pretty i) k) (seq 0 n).

(** [v[k]] on an object: own data properties, the own [length] of an
    array, and the accessor [__proto__] inherited from [Object.prototype].
    The other inherited members are methods; they are left out, see
    [has_property].  The program reads properties of objects only, or
    through [?.]; on the other values the result here is [undefined]. *)
Definition get (v : value) (k : string) : value :=
  match v with
  | VObj m =>
      match m !! k with
      | Some x => x
      | None => if String.eqb k "__proto__" then VBuiltin ObjectPrototype else VUndefined
      end
  | VArr l =>
      match array_index k (length l) with
      | Some i => default VUndefined (l !! i)
      | None =>
          if String.eqb k "length" then VNum (Z.of_nat (length l))
          else if String.eqb k "__proto__" then VBuiltin ArrayPrototype
          else VUndefined
      end
  | VBuiltin ObjectPrototype =>
      if String.eqb k "__proto__" then VNull else VUndefined
  | VBuiltin ArrayPrototype =>
      if String.eqb k "length" then VNum 0
      else if String.eqb k "__proto__" then VBuiltin ObjectPrototype
      else VUndefined
  | _ => VUndefined
  end.

(** [k in v] for an object [v].  Inherited methods ([toString],
    [hasOwnProperty], [push], ...) are not listed: every one of them is a
    function, not one of them is named by a key the program tests with a
    literal, and in the path walk a function is dropped by the next
    [typeof prev === 'object'] test exactly as [undefined] is. *)
Definition has_property (v : value) (k : string) : bool :=
  match v with
  | VObj m => bool_decide (is_Some (m !! k)) || String.eqb k "__proto__"
  | VArr l =>
      bool_decide (is_Some (array_index k (length l)))
      || String.eqb k "length" || String.eqb k "__proto__"
  | VBuiltin ObjectPrototype => String.eqb k "__proto__"
  | VBuiltin ArrayPrototype => String.eqb k "length" || String.eqb k "__proto__"
  | _ => false
  end.

(** The operator [in] raises a [TypeError] on a primitive right operand. *)
Definition in_op (k : string) (v : value) : option bool :=
  match v with
  | VUndefined | VNull | VBool _ | VNum _ | VStr _ => None
  | VFun _ => Some false
  | _ => Some (has_property v k)
  end.

(** ** Property paths (index.ts, lines 29-31) *)

Definition is_bracket (c : ascii) : bool :=
  Ascii.eqb c "[" || Ascii.eqb c "]".

(** The longest prefix of [s] without a bracket, and what follows it. *)
Fixpoint bracket_free_prefix (s : string) : string * string :=
  match s with
  | "" => ("", "")
  | String c s' =>
      if is_bracket c then ("", s)
      else let '(g, r) := bracket_free_prefix s' in (String c g, r)
  end.

(** A match, at the head of [s], of the pattern of line 29: an opening
    bracket, a group of any number of characters other than brackets, a
    closing bracket.  The result is the text of group 1 and the text after the closing bracket.  The class excludes
    both brackets, so the group is the whole bracket-free run after '['
    and the match succeeds exactly when a ']' ends that run. *)
Definition match_bracket (s : string) : option (string * string) :=
  match s with
  | String c s' =>
      if Ascii.eqb c "[" then
        match bracket_free_prefix s' with
        | (g, String d r) => if Ascii.eqb d "]" then Some (g, r) else None
        | _ => None
        end
      else None
  | "" => None
  end.

(** [s.replace(pattern, '.$1.')] with the global flag: the matches are
    taken from left to right and do not overlap, each is replaced by its
    group between two dots, and the text outside them is copied.  [fuel]
    bounds the number of characters still to be read. *)
Fixpoint replace_from (fuel : nat) (s : string) : string :=
  match fuel with
  | O => s
  | S fuel' =>
      match s with
      | "" => ""
      | String c s' =>
          match match_bracket s with
          | Some (g, r) => "." +:+ g +:+ "." +:+ replace_from fuel' r
          | None => String c (replace_from fuel' s')
          end
      end
  end.

Definition replace_brackets (s : string) : string :=
  replace_from (String.length s) s.

(** [s.split(sep)] for a one-character separator: the pieces between the
    occurrences of [sep], in order.  The empty string splits into one empty
    piece. *)
Fixpoint split (sep : ascii) (s : string) : list string :=
  match s with
  | "" => [""]
  | String c s' =>
      if Ascii.eqb c sep then "" :: split sep s'
      else
        match split sep s' with
        | piece :: pieces => String c piece :: pieces
        | [] => [String c ""]
        end
  end.

(** [property.replace(...).split('.').filter((t) => t !== '')] *)
Definition path_segments (property : string) : list string :=
  List.filter (λ t, negb (String.eqb t "")) (split "." (replace_brackets property)).

(** ** The schema locator (index.ts, lines 20-70) *)

(** The callback of [reduce], lines 32-38. *)
Definition reducer (prev : value) (curr : string) : value :=
  if truthy prev && bool_decide (typeof prev = TObject) && has_property prev curr
  then get prev curr
  else VUndefined.

(** The constant [subParameters], lines 29-38. *)
Definition subParameters (schemaFromParameters : value) (property : string) : value :=
  fold_left reducer (path_segments property) schemaFromParameters.

Definition retrieveParametersValue (parameters property : value) : value :=
  if truthy parameters && bool_decide (typeof parameters = TObject) then
    match property with
    | VStr p =>
        if truthy property then
          let sub := subParameters parameters p in
          if truthy sub && bool_decide (typeof sub = TObject) && negb (isArray sub)
          then sub
          else VNull
        else parameters
    | _ => parameters
    end
  else VNull.

(** *** Loose equality with the string 'object' (line 56)

    [x == 'object'] compares a string operand as a string, is false for
    [null], [undefined], numbers and booleans (the number that 'object'
    converts to is [NaN]), and converts an object operand to a primitive
    first.  The conversion of a plain object calls its [valueOf] and then its
    [toString]; the inherited ones give back the object itself and the text
    [[object Object]].  An array is converted by joining its elements with
    commas, where [null] and [undefined] elements give the empty text.  The
    text of a function is its source, which is never 'object'.

    The result is [None] when the comparison does not end with a built-in
    result: an own [valueOf] or [toString] function of the operand takes
    over, or no conversion applies and a [TypeError] is raised. *)

(** Whether the conversion of [v] to a string ends with a built-in result. *)
Fixpoint converts (v : value) : bool :=
  match v with
  | VObj m => negb (bool_decide (is_Some (m !! "toString")))
  | VArr l => forallb converts l
  | _ => true
  end.

(** Whether the string that [v] converts to is 'object'. *)
Fixpoint to_string_is_object (v : value) : option bool :=
  match v with
  | VStr s => Some (String.eqb s "object")
  | VObj m => if bool_decide (is_Some (m !! "toString")) then None else Some false
  | VArr [] => Some false
  | VArr [x] =>
      match x with
      | VUndefined | VNull => Some false
      | _ => to_string_is_object x
      end
  | VArr l => if forallb converts l then Some false else None
  | _ => Some false
  end.

Definition own_function (m : gmap string value) (k : string) : bool :=
  match m !! k with
  | Some (VFun _) => true
  | _ => false
  end.

Definition loose_eq_object (x : value) : option bool :=
  match x with
  | VStr s => Some (String.eqb s "object")
  | VUndefined | VNull | VBool _ | VNum _ => Some false
  | VObj m =>
      if own_function m "valueOf" then None
      else to_string_is_object x
  | VFun _ | VArr _ | VBuiltin _ => to_string_is_object x
  end.

Definition PARAMETERS_PROPS : list string :=
  ["params"; "body"; "query"; "headers"; "cookies"; "files"].

(** The test of line 56 without its negation:
    ['type' in v && v.type == 'object' && 'properties' in v]. *)
Definition is_canonical (v : value) : option bool :=
  match in_op "type" v with
  | Some true =>
      match loose_eq_object (get v "type") with
      | Some true => in_op "properties" v
      | other => other
      end
  | other => other
  end.

(** [None]: the comparison of line 56 did not end with a built-in result. *)
Definition retrieveSchema (parameters property : value) : option value :=
  let v := retrieveParametersValue parameters property in
  if truthy v then
    canonical ← is_canonical v;
    if negb (canonical : bool) then
      let props : gmap string value :=
        foldl (λ props p,
                 if truthy (get v p) && bool_decide (typeof (get v p) = TObject)
                 then <[p := get v p]> props
                 else props)
              ∅ PARAMETERS_PROPS in
      Some (VObj {[ "type" := VStr "object"; "properties" := v ]})
    else Some v
  else Some v.

(** ** The request extractor (index.ts, lines 72-96) *)

Record Meta := { parameters : value }.

Record Request := {
  meta : option Meta;
  params : value;
  body : value;
  query : value;
  headers : value;
  cookies : value;
  files : value;
  originalUrl : string
}.

(** [None]: [schema] is a primitive and the [in] of line 74 raises a
    [TypeError].  Inside the branch [properties] is an object, where [in]
    is [has_property]. *)
Definition buildValueToValidate (schema : value) (req : Request) : option value :=
  has_properties ← in_op "properties" schema;
  let properties := get schema "properties" in
  if (has_properties : bool) && truthy properties && bool_decide (typeof properties = TObject) then
    let r : gmap string value := ∅ in
    let r := if has_property properties "params" then <["params" := params req]> r else r in
    let r := if has_property properties "body" then <["body" := body req]> r else r in
    let r := if has_property properties "query" then <["query" := query req]> r else r in
    let r := if has_property properties "headers" then <["headers" := headers req]> r else r in
    let r := if has_property properties "cookies" then <["cookies" := cookies req]> r else r in
    let r := if has_property properties "files" then <["files" := files req]> r else r in
    Some (VObj r)
  else Some (VObj ∅).

(** ** The middleware (index.ts, lines 107-151) *)

(** The engine: [new Ajv(options)] may raise; [ajv.compile(schema)] may
    raise or gives the function [validate]; a call [validate(data)] gives a
    boolean and leaves the error records in [validate.errors]. *)
Class AjvEngine := {
  ajv : Type;
  new_Ajv : value → option ajv;
  compile : ajv → value → option (value → bool * value)
}.

Inductive arg :=
| AValue (v : value)
| ARequest (req : Request)
| AResponse
| ANext.

(** What a run of the handler does, in order. *)
Inductive event :=
| EvNext                               (* next() *)
| EvNewAjv (options : value)           (* new Ajv(options) *)
| EvCompile (schema : value)           (* ajv.compile(schema) *)
| EvValidate (values : value)          (* validate(values) *)
| EvCall (f : value) (args : list arg) (* f(args) *)
| EvStatus (code : Z)                  (* res.status(code) *)
| EvJson (payload : value)             (* .json(payload) *)
| EvAbrupt.                            (* an exception leaves the handler, or
                                          code supplied with the data runs *)

(** [req.meta?.parameters] *)
Definition meta_parameters (req : Request) : value :=
  match meta req with
  | Some m => parameters m
  | None => VUndefined
  end.

(** [v?.k] *)
Definition optional_get (v : value) (k : string) : value :=
  match v with
  | VUndefined | VNull => VUndefined
  | _ => get v k
  end.

(** [schema.valueOf()]: the inherited method gives back the object; an own
    property of that name is outside the embedding. *)
Definition valueOf (schema : value) : option value :=
  match schema with
  | VObj m => if bool_decide (is_Some (m !! "valueOf")) then None else Some schema
  | _ => Some schema
  end.

Section Middleware.
Context `{Engine : AjvEngine}.

(** Lines 126-146, with the error records of [validate.errors]. *)
Definition report (onerror : value) (req : Request) (route : value) (errors : value)
  : list event :=
  let err := VObj {[ "errors" := errors ]} in
  if bool_decide (typeof (optional_get route "onerror") = TFunction) then
    [EvCall (get route "onerror") [AValue err; ARequest req; AResponse; ANext]]
  else if truthy onerror && bool_decide (typeof onerror = TFunction) then
    [EvCall onerror [AValue err; ARequest req; AResponse; ANext]]
  else
    [EvStatus 400; EvJson err].

Definition validatorJsonRequestHandler
    (defaultAjv : ajv) (onerror schemaProperty : value) (req : Request) : list event :=
  match retrieveSchema (meta_parameters req) schemaProperty with
  | None => [EvAbrupt]
  | Some schema =>
      if negb (truthy schema) then [EvNext]
      else
        match buildValueToValidate schema req, meta req with
        | Some values, Some m =>
            let route := parameters m in
            let options := optional_get route "validatorJsonOptions" in
            let '(created, engine) :=
              if truthy options then ([EvNewAjv options], new_Ajv options)
              else ([], Some defaultAjv) in
            match engine, valueOf schema with
            | Some engine, Some plain =>
                match compile engine plain with
                | Some validate =>
                    let '(valid, errors) := validate values in
                    created ++ [EvCompile plain; EvValidate values] ++
                      (if negb valid then report onerror req route errors
                       else [EvNext])
                | None => created ++ [EvCompile plain; EvAbrupt]
                end
            | Some _, None => created ++ [EvAbrupt]
            | None, _ => created ++ [EvAbrupt]
            end
        | _, _ => [EvAbrupt]
        end
  end.

Definition validatorJson (options onerror schemaProperty : value)
  : option (Request → list event) :=
  defaultAjv ← new_Ajv options;
  Some (validatorJsonRequestHandler defaultAjv onerror schemaProperty).
End Middleware.

(** ** Notions used in the statements *)

(** *** Property paths as syntax

    A path is a first key followed by accessors, [.name] or [[name]]. *)

Inductive accessor := Dot (name : string) | Bracket (name : string).

Definition accessor_name (a : accessor) : string :=
  match a with Dot n | Bracket n => n end.

(** The accessor written with a dot. *)
Definition as_dot (a : accessor) : accessor := Dot (accessor_name a).

Definition render_accessor (a : accessor) : string :=
  match a with
  | Dot n => "." +:+ n
  | Bracket n => "[" +:+ n +:+ "]"
  end.

Definition render_path (first : string) (l : list accessor) : string :=
  first +:+ foldr (λ a s, render_accessor a +:+ s) "" l.

(** A name that holds none of the characters of the path grammar; the
    empty name is one. *)
Definition is_special (c : ascii) : bool :=
  Ascii.eqb c "." || is_bracket c.

Fixpoint plain_name (n : string) : bool :=
  match n with
  | "" => true
  | String c n' => negb (is_special c) && plain_name n'
  end.

(** [t !== ''] *)
Definition nonempty (t : string) : bool := negb (String.eqb t "").

(** What [replace_brackets] makes of an accessor. *)
Definition normal_accessor (a : accessor) : string :=
  match a with
  | Dot n => "." +:+ n
  | Bracket n => "." +:+ n +:+ "."
  end.

(** *** Located values *)

(** [v && typeof v === 'object' && !Array.isArray(v)] *)
Definition non_array_object (v : value) : bool :=
  truthy v && bool_decide (typeof v = TObject) && negb (isArray v).

(** The value that a configuration and a property path address: the
    configuration itself when the path is left out, the end of the walk
    otherwise. *)
Definition located_value (config property : value) : value :=
  match property with
  | VStr p => if truthy property then subParameters config p else config
  | _ => config
  end.

(** [{ type: 'object', properties: v }] *)
Definition wrapped (v : value) : value :=
  VObj {[ "type" := VStr "object"; "properties" := v ]}.

(** [x === 'object'] *)
Definition strict_eq_object (x : value) : bool :=
  match x with
  | VStr s => String.eqb s "object"
  | _ => false
  end.

(** *** Facets *)

(** The facet of the request that a recognised name stands for. *)
Definition facet (req : Request) (name : string) : value :=
  if String.eqb name "params" then params req
  else if String.eqb name "body" then body req
  else if String.eqb name "query" then query req
  else if String.eqb name "headers" then headers req
  else if String.eqb name "cookies" then cookies req
  else if String.eqb name "files" then files req
  else VUndefined.

(** One of the six tests of lines 76-93. *)
Definition copy_facet (properties : value) (req : Request)
    (r : gmap string value) (name : string) : gmap string value :=
  if has_property properties name then <[name := facet req name]> r else r.

(** *** Sample configurations, requests and an engine *)

Definition nested_config : value :=
  VObj {[ "a" := VObj {[ "b" := VObj {[ "c" := VObj {[ "body" := VObj ∅ ]} ]} ]} ]}.

Definition canonical_config : value :=
  VObj {[ "type" := VStr "object";
          "properties" := VObj {[ "body" := VObj {[ "type" := VStr "object" ]} ]} ]}.

Definition array_typed_config : value :=
  VObj {[ "type" := VArr [VStr "object"]; "properties" := VObj {[ "body" := VObj ∅ ]} ]}.

Definition facet_map_config : value :=
  VObj {[ "body" := VObj {[ "type" := VStr "object" ]};
          "onerror" := VFun "onerror";
          "other" := VNum 1 ]}.

Definition sample_request : Request := {|
  meta := None;
  params := VObj {[ "id" := VStr "7" ]};
  body := VObj {[ "name" := VStr "x" ]};
  query := VObj ∅;
  headers := VObj {[ "host" := VStr "localhost" ]};
  cookies := VUndefined;
  files := VUndefined;
  originalUrl := "/app"
|}.

Definition query_body_schema : value :=
  VObj {[ "type" := VStr "object";
          "properties" := VObj {[ "query" := VObj ∅; "body" := VNum 1; "other" := VObj ∅ ]} ]}.

Definition required_error : value := VArr [VObj {[ "keyword" := VStr "required" ]}].

(** An engine for the examples: every schema compiles, and a value is
    valid when its [body] has a key [name]. *)
Definition requires_name (data : value) : bool * value :=
  if has_property (get data "body") "name" then (true, VNull)
  else (false, required_error).

Definition name_engine : AjvEngine := {|
  ajv := unit;
  new_Ajv := λ _, Some tt;
  compile := λ _ _, Some requires_name
|}.

Definition body_schema : value :=
  VObj {[ "body" := VObj {[ "type" := VStr "object"; "required" := VArr [VStr "name"] ]} ]}.

Definition request_of (route payload : value) : Request := {|
  meta := Some {| parameters := route |};
  params := VObj ∅;
  body := payload;
  query := VObj ∅;
  headers := VObj ∅;
  cookies := VUndefined;
  files := VUndefined;
  originalUrl := "/app"
|}.

Definition routed_config : value :=
  VObj {[ "body" := VObj {[ "type" := VStr "object" ]}; "onerror" := VFun "routeHandler" ]}.

(** *** Notions for the further properties *)

(** Whether the character [c] occurs in [s]. *)
Fixpoint contains (c : ascii) (s : string) : bool :=
  match s with
  | "" => false
  | String d s' => Ascii.eqb d c || contains c s'
  end.

(** The events that only concern the engine. *)
Definition engine_event (e : event) : bool :=
  match e with
  | EvNewAjv _ | EvCompile _ | EvValidate _ => true
  | _ => false
  end.

(** The ways a run of the handler on [req] can end. *)
Inductive ending (req : Request) : list event → Prop :=
| ending_next : ending req [EvNext]
| ending_handler (f errors : value) :
    typeof f = TFunction →
    ending req [EvCall f [AValue (VObj {[ "errors" := errors ]});
                          ARequest req; AResponse; ANext]]
| ending_400 (errors : value) :
    ending req [EvStatus 400; EvJson (VObj {[ "errors" := errors ]})]
| ending_abrupt : ending req [EvAbrupt].

(** A route configuration with engine options of its own, and an engine
    whose verdict depends on the options it was built from: built from
    options with a key [strict] it wants a [name] in the body, built from
    anything else it accepts every value. *)
Definition strict_config : value :=
  VObj {[ "body" := VObj ∅; "validatorJsonOptions" := VObj {[ "strict" := VBool true ]} ]}.

Definition option_engine : AjvEngine := {|
  ajv := bool;
  new_Ajv := λ options, Some (has_property options "strict");
  compile := λ strict _, Some (if strict then requires_name else λ _, (true, VNull))
|}.

(** A bare facet map in which a facet is given a value that is not an
    object. *)
Definition loose_facet_map : value :=
  VObj {[ "body" := VObj ∅; "query" := VNum 1; "other" := VObj ∅ ]}.

Definition named_body : value := VObj {[ "name" := VStr "x" ]}.

(** * Properties *)

(** ** Facts about the path grammar *)

#[local] Arguments String.append !_ _ / : simpl nomatch.

Lemma bracket_free_prefix_length (s g r : string) :
  bracket_free_prefix s = (g, r) → (String.length r ≤ String.length s)%nat.
Proof.
  revert g r. induction s as [|c s IH]; intros g r; simpl.
  - intros [= <- <-]. done.
  - destruct (is_bracket c).
    + intros [= <- <-]. done.
    + destruct (bracket_free_prefix s) as [g' r'] eqn:E.
      intros [= <- <-]. specialize (IH _ _ eq_refl). lia.
Qed.

Lemma match_bracket_length (s g r : string) :
  match_bracket s = Some (g, r) → (String.length r < String.length s)%nat.
Proof.
  destruct s as [|c s]; simpl; [done|].
  destruct (Ascii.eqb c "["); [|done].
  destruct (bracket_free_prefix s) as [g' [|d r']] eqn:E; [done|].
  destruct (Ascii.eqb d "]"); [|done].
  intros [= <- <-]. apply bracket_free_prefix_length in E. simpl in E. lia.
Qed.

(** More fuel than characters changes nothing. *)
Lemma replace_from_enough (n : nat) (s : string) :
  (String.length s ≤ n)%nat → replace_from n s = replace_brackets s.
Proof.
  unfold replace_brackets.
  remember (String.length s) as k eqn:Hk.
  revert s Hk n. induction k as [k IH] using lt_wf_ind. intros s Hk n Hn.
  destruct s as [|c s]; simpl in Hk; subst k.
  - destruct n; done.
  - destruct n as [|n]; [lia|]. cbn [replace_from].
    destruct (match_bracket (String c s)) as [[g r]|] eqn:E.
    + apply match_bracket_length in E. simpl in E.
      rewrite (IH (String.length r)) by (done || lia).
      rewrite (IH (String.length r) ltac:(lia) r eq_refl (String.length s)) by lia.
      done.
    + rewrite (IH (String.length s)) by (done || lia). done.
Qed.

Lemma replace_brackets_nil : replace_brackets "" = "".
Proof. done. Qed.

Lemma replace_brackets_match (c : ascii) (s g r : string) :
  match_bracket (String c s) = Some (g, r) →
  replace_brackets (String c s) = "." +:+ g +:+ "." +:+ replace_brackets r.
Proof.
  intros E. unfold replace_brackets at 1. cbn [String.length replace_from].
  rewrite E. apply match_bracket_length in E. simpl in E.
  rewrite replace_from_enough by lia. done.
Qed.

Lemma replace_brackets_copy (c : ascii) (s : string) :
  match_bracket (String c s) = None →
  replace_brackets (String c s) = String c (replace_brackets s).
Proof.
  intros E. unfold replace_brackets at 1. cbn [String.length replace_from].
  rewrite E. done.
Qed.

Lemma string_app_nil_r (s : string) : s +:+ "" = s.
Proof. induction s; simpl; congruence. Qed.

Lemma string_app_assoc (a b c : string) : (a +:+ b) +:+ c = a +:+ (b +:+ c).
Proof. induction a; simpl; congruence. Qed.

Lemma special_cases (c : ascii) :
  is_special c = false →
  Ascii.eqb c "." = false ∧ Ascii.eqb c "[" = false ∧ is_bracket c = false.
Proof.
  unfold is_special, is_bracket.
  destruct (Ascii.eqb c "."), (Ascii.eqb c "["), (Ascii.eqb c "]"); simpl; auto; discriminate.
Qed.

Lemma replace_brackets_plain (n s : string) :
  plain_name n → replace_brackets (n +:+ s) = n +:+ replace_brackets s.
Proof.
  induction n as [|c n IH]; simpl; [done|].
  intros [Hc Hn]%andb_prop_elim.
  apply negb_prop_elim, Is_true_false_1, special_cases in Hc as (_ & Hc & _).
  rewrite replace_brackets_copy by (simpl; rewrite Hc; done).
  rewrite IH; done.
Qed.

Lemma bracket_free_prefix_plain (n s : string) :
  plain_name n → bracket_free_prefix (n +:+ String "]" s) = (n, String "]" s).
Proof.
  induction n as [|c n IH]; simpl; [done|].
  intros [Hc Hn]%andb_prop_elim.
  apply negb_prop_elim, Is_true_false_1, special_cases in Hc as (_ & _ & Hc).
  rewrite Hc, IH; done.
Qed.

Lemma replace_brackets_bracket (n s : string) :
  plain_name n →
  replace_brackets (String "[" (n +:+ String "]" s))
  = String "." (n +:+ String "." (replace_brackets s)).
Proof.
  intros Hn. apply (replace_brackets_match "["). simpl.
  rewrite bracket_free_prefix_plain by done. done.
Qed.

Lemma replace_brackets_render (first : string) (l : list accessor) :
  plain_name first → Forall (λ a, plain_name (accessor_name a)) l →
  replace_brackets (render_path first l)
  = first +:+ foldr (λ a s, normal_accessor a +:+ s) "" l.
Proof.
  intros Hf Hl. unfold render_path. rewrite replace_brackets_plain by done.
  f_equal. induction Hl as [|a l Ha Hl IH]; [done|].
  cbn [foldr]. destruct a as [n|n]; simpl in Ha |- *.
  - rewrite replace_brackets_copy by done. f_equal.
    rewrite replace_brackets_plain by done. by rewrite IH.
  - rewrite !string_app_assoc. simpl.
    rewrite replace_brackets_bracket by done. by rewrite IH.
Qed.

Lemma split_plain (n s piece : string) (pieces : list string) :
  plain_name n →
  split "." s = piece :: pieces →
  split "." (n +:+ s) = (n +:+ piece) :: pieces.
Proof.
  intros Hn Hs. induction n as [|c n IH]; simpl; [done|].
  apply andb_prop_elim in Hn as [Hc Hn].
  apply negb_prop_elim, Is_true_false_1, special_cases in Hc as (Hc & _ & _).
  rewrite Hc, IH by done. done.
Qed.

Lemma split_normal (l : list accessor) :
  Forall (λ a, plain_name (accessor_name a)) l →
  ∃ pieces,
    split "." (foldr (λ a s, normal_accessor a +:+ s) "" l) = "" :: pieces
    ∧ List.filter nonempty pieces = List.filter nonempty (accessor_name <$> l).
Proof.
  induction 1 as [|a l Ha Hl (pieces & Hs & Hf)]; [by exists []|].
  cbn [foldr]. destruct a as [n|n]; simpl in Ha.
  - exists (n :: pieces). split; simpl.
    + rewrite (split_plain _ _ _ _ Ha Hs), string_app_nil_r. done.
    + by rewrite Hf.
  - exists (n :: "" :: pieces). split; simpl.
    + rewrite string_app_assoc.
      rewrite (split_plain n _ "" ("" :: pieces)), string_app_nil_r; [done..|].
      simpl. by rewrite Hs.
    + by rewrite Hf.
Qed.

Lemma path_segments_render (first : string) (l : list accessor) :
  plain_name first → Forall (λ a, plain_name (accessor_name a)) l →
  path_segments (render_path first l)
  = List.filter nonempty (first :: (accessor_name <$> l)).
Proof.
  intros Hf Hl. unfold path_segments.
  rewrite replace_brackets_render by done.
  destruct (split_normal l Hl) as (pieces & Hs & Hp).
  rewrite (split_plain _ _ _ _ Hf Hs), string_app_nil_r.
  simpl. fold nonempty. rewrite <- Hp. done.
Qed.

(** ** Facts about the locator *)

Lemma path_segments_empty : path_segments "" = [].
Proof. reflexivity. Qed.

Lemma retrieveParametersValue_path (config : value) (p : string) :
  retrieveParametersValue config (VStr p)
  = if is_object config then
      if nonempty p then
        if non_array_object (subParameters config p) then subParameters config p
        else VNull
      else config
    else VNull.
Proof. reflexivity. Qed.

Lemma retrieveParametersValue_no_path (config property : value) :
  (∀ p, property ≠ VStr p) →
  retrieveParametersValue config property = if is_object config then config else VNull.
Proof.
  intros Hp. unfold retrieveParametersValue, is_object.
  destruct property; try done. by destruct (Hp s).
Qed.

Lemma retrieveParametersValue_not_object (config property : value) :
  is_object config = false → retrieveParametersValue config property = VNull.
Proof.
  unfold retrieveParametersValue, is_object. by intros ->.
Qed.

Lemma retrieveSchema_null (config property : value) :
  retrieveParametersValue config property = VNull →
  retrieveSchema config property = Some VNull.
Proof. unfold retrieveSchema. by intros ->. Qed.

Lemma located_object (config property : value) :
  truthy (retrieveParametersValue config property) →
  typeof (retrieveParametersValue config property) = TObject.
Proof.
  unfold retrieveParametersValue.
  destruct (truthy config && bool_decide (typeof config = TObject)) eqn:Hc; [|done].
  apply andb_true_iff in Hc as [_ Hc%bool_decide_eq_true].
  destruct property; try done.
  destruct (truthy (VStr s)); [|done].
  cbv zeta.
  destruct (truthy _ && bool_decide _ && _) eqn:Hs; [|done].
  apply andb_true_iff in Hs as [[_ Hs%bool_decide_eq_true]%andb_true_iff _]. done.
Qed.

Lemma in_op_object (k : string) (v : value) :
  truthy v → typeof v = TObject → in_op k v = Some (has_property v k).
Proof. by destruct v. Qed.

Lemma reducer_undefined (curr : string) : reducer VUndefined curr = VUndefined.
Proof. done. Qed.

Lemma fold_reducer_undefined (segments : list string) :
  fold_left reducer segments VUndefined = VUndefined.
Proof. induction segments; simpl; auto. Qed.

Lemma subParameters_unresolved (config : value) (p : string)
    (before : list string) (segment : string) (after : list string) :
  path_segments p = before ++ segment :: after →
  is_object (fold_left reducer before config)
    && has_property (fold_left reducer before config) segment = false →
  subParameters config p = VUndefined.
Proof.
  intros Hp Hk. unfold subParameters. rewrite Hp, fold_left_app. simpl.
  unfold reducer at 2. fold (is_object (fold_left reducer before config)).
  rewrite Hk. apply fold_reducer_undefined.
Qed.

Lemma segments_nonempty_path (p : string) (segment : string) (segments : list string) :
  path_segments p = segment :: segments → nonempty p = true.
Proof. destruct p; [done|]. done. Qed.

(** Loose and strict equality agree when the operand is a primitive, and
    strict equality implies loose equality. *)
Lemma loose_eq_object_primitive (x : value) :
  typeof x ≠ TObject → typeof x ≠ TFunction →
  loose_eq_object x = Some (strict_eq_object x).
Proof. destruct x; simpl; intros Ho Hf; congruence. Qed.

Lemma strict_eq_object_loose (x : value) :
  strict_eq_object x = true → loose_eq_object x = Some true.
Proof. destruct x; simpl; try done. by intros ->. Qed.

Lemma render_path_nonempty (first : string) (l : list accessor) :
  nonempty (render_path first (as_dot <$> l)) = nonempty (render_path first l).
Proof.
  unfold render_path. destruct first as [|c first]; [|done].
  destruct l as [|[n|n] l]; done.
Qed.

Lemma as_dot_names (l : list accessor) :
  accessor_name <$> (as_dot <$> l) = accessor_name <$> l.
Proof. induction l as [|a l IH]; [done|]. csimpl. by rewrite IH. Qed.

Lemma as_dot_plain (l : list accessor) :
  Forall (λ a, plain_name (accessor_name a)) l →
  Forall (λ a, plain_name (accessor_name a)) (as_dot <$> l).
Proof. induction 1; constructor; done. Qed.

Lemma retrieveParametersValue_segments (config : value) (p q : string) :
  nonempty p = nonempty q → path_segments p = path_segments q →
  retrieveParametersValue config (VStr p) = retrieveParametersValue config (VStr q).
Proof.
  intros Hn Hs. rewrite !retrieveParametersValue_path. unfold subParameters.
  by rewrite Hn, Hs.
Qed.

(** C3.  A path written with bracket accessors addresses the same value as
    the path written with dots: for a first key and a list of accessors
    whose names hold no '.', '[' or ']', the segments of the rendered path
    are the non-empty names in order (empty segments are dropped), and
    [retrieveParametersValue] and [retrieveSchema] give the same result on
    the path and on its all-dots form.  With first key [a] and accessors
    [.b], [[c]] this is the equivalence of "a.b[c]" and "a.b.c". *)
Theorem bracket_path_resolves_as_dot_path
    (config : value) (first : string) (l : list accessor) :
  plain_name first →
  Forall (λ a, plain_name (accessor_name a)) l →
  path_segments (render_path first l)
    = List.filter nonempty (first :: (accessor_name <$> l))
  ∧ retrieveParametersValue config (VStr (render_path first l))
    = retrieveParametersValue config (VStr (render_path first (as_dot <$> l)))
  ∧ retrieveSchema config (VStr (render_path first l))
    = retrieveSchema config (VStr (render_path first (as_dot <$> l))).
Proof.
  intros Hf Hl.
  assert (retrieveParametersValue config (VStr (render_path first l))
          = retrieveParametersValue config (VStr (render_path first (as_dot <$> l)))) as E.
  { apply retrieveParametersValue_segments.
    - by rewrite render_path_nonempty.
    - rewrite !path_segments_render, ?as_dot_names by auto using as_dot_plain. done. }
  split; [by apply path_segments_render|]. split; [done|].
  unfold retrieveSchema. by rewrite E.
Qed.

Lemma bracket_path_resolves_as_dot_path_witness :
  path_segments "a.b[c]" = ["a"; "b"; "c"]
  ∧ retrieveParametersValue nested_config (VStr "a.b[c]")
    = retrieveParametersValue nested_config (VStr "a.b.c")
  ∧ retrieveSchema nested_config (VStr "a.b[c]")
    = retrieveSchema nested_config (VStr "a.b.c").
Proof.
  apply (bracket_path_resolves_as_dot_path nested_config "a" [Dot "b"; Bracket "c"]).
  - exact I.
  - repeat constructor.
Defined.

(** C10.  The empty string as property path is the path left out: the
    configuration itself is located. *)
Theorem empty_path_is_omitted_path (config : value) :
  retrieveParametersValue config (VStr "") = retrieveParametersValue config VUndefined
  ∧ retrieveSchema config (VStr "") = retrieveSchema config VUndefined
  ∧ retrieveParametersValue config (VStr "") = (if is_object config then config else VNull).
Proof. done. Qed.

Lemma retrieveParametersValue_unresolved (config : value) (p : string)
    (before : list string) (segment : string) (after : list string) :
  path_segments p = before ++ segment :: after →
  is_object (fold_left reducer before config)
    && has_property (fold_left reducer before config) segment = false →
  retrieveParametersValue config (VStr p) = VNull.
Proof.
  intros Hp Hk. rewrite retrieveParametersValue_path.
  rewrite (subParameters_unresolved _ _ _ _ _ Hp Hk).
  destruct (is_object config), (nonempty p) eqn:Hn; try done.
  destruct before; simpl in Hp; by rewrite (segments_nonempty_path _ _ _ Hp) in Hn.
Qed.

(** C7.  When a segment of the path is not a key of an object at its point
    in the walk, the result is null. *)
Theorem unresolved_segment_gives_null (config : value) (p : string)
    (before : list string) (segment : string) (after : list string) :
  path_segments p = before ++ segment :: after →
  is_object (fold_left reducer before config)
    && has_property (fold_left reducer before config) segment = false →
  retrieveParametersValue config (VStr p) = VNull
  ∧ retrieveSchema config (VStr p) = Some VNull.
Proof.
  intros Hp Hk.
  pose proof (retrieveParametersValue_unresolved _ _ _ _ _ Hp Hk) as E.
  split; [done|]. by apply retrieveSchema_null.
Qed.

Lemma unresolved_segment_gives_null_witness :
  path_segments "a.x.c" = ["a"] ++ "x" :: ["c"]
  ∧ retrieveParametersValue nested_config (VStr "a.x.c") = VNull
  ∧ retrieveSchema nested_config (VStr "a.x.c") = Some VNull.
Proof.
  split; [reflexivity|].
  apply (unresolved_segment_gives_null nested_config "a.x.c" ["a"] "x" ["c"]).
  - reflexivity.
  - vm_compute. reflexivity.
Defined.

(** ** Normalisation *)

Lemma retrieveSchema_located (config property : value) :
  truthy (retrieveParametersValue config property) →
  retrieveSchema config property
  = match is_canonical (retrieveParametersValue config property) with
    | Some true => Some (retrieveParametersValue config property)
    | Some false => Some (wrapped (retrieveParametersValue config property))
    | None => None
    end.
Proof.
  intros Hv. unfold retrieveSchema. cbv zeta.
  rewrite (Is_true_true_1 _ Hv).
  by destruct (is_canonical _) as [[]|].
Qed.

Lemma is_canonical_object (v : value) :
  truthy v → typeof v = TObject →
  is_canonical v
  = if has_property v "type" then
      match loose_eq_object (get v "type") with
      | Some true => Some (has_property v "properties")
      | other => other
      end
    else Some false.
Proof.
  intros Ht Ho. unfold is_canonical. rewrite !in_op_object by done.
  by destruct (has_property v "type").
Qed.

(** C6.  A located object that has [type === 'object'] and a [properties]
    key is returned as it is. *)
Theorem canonical_schema_is_returned_unchanged (config property v : value) :
  retrieveParametersValue config property = v →
  truthy v →
  has_property v "type" →
  strict_eq_object (get v "type") →
  has_property v "properties" →
  retrieveSchema config property = Some v.
Proof.
  intros <- Ht Hty Heq Hp.
  rewrite retrieveSchema_located by done.
  rewrite is_canonical_object by auto using located_object.
  rewrite (Is_true_true_1 _ Hty), (strict_eq_object_loose _ (Is_true_true_1 _ Heq)).
  by rewrite (Is_true_true_1 _ Hp).
Qed.

Lemma canonical_schema_is_returned_unchanged_witness :
  retrieveSchema canonical_config VUndefined = Some canonical_config
  ∧ retrieveSchema (VObj {[ "schema" := canonical_config ]}) (VStr "schema")
    = Some canonical_config.
Proof.
  split.
  - apply (canonical_schema_is_returned_unchanged canonical_config VUndefined canonical_config);
      vm_compute; done.
  - apply (canonical_schema_is_returned_unchanged
             (VObj {[ "schema" := canonical_config ]}) (VStr "schema") canonical_config);
      vm_compute; done.
Defined.

(** C2, as stated, fails: the test of line 56 uses [==], and the
    one-element array ['object'] is loosely equal to 'object'.  A located
    object whose [type] is that array does not have [type === 'object'],
    yet it is returned as it is and not wrapped. *)
Lemma array_typed_schema_is_not_wrapped :
  retrieveParametersValue array_typed_config VUndefined = array_typed_config
  ∧ truthy array_typed_config = true
  ∧ strict_eq_object (get array_typed_config "type") = false
  ∧ retrieveSchema array_typed_config VUndefined = Some array_typed_config
  ∧ retrieveSchema array_typed_config VUndefined ≠ Some (wrapped array_typed_config).
Proof.
  repeat split; try (vm_compute; reflexivity).
  intros H. vm_compute in H. discriminate H.
Qed.

(** C2, amended.  A located object on which the test
    ['type' in v && v.type == 'object' && 'properties' in v] is false, with
    the loose equality of the source, is wrapped as
    [{ type: 'object', properties: v }]; the whole object is passed on as
    [properties], whatever its keys and their values. *)
Theorem non_canonical_schema_is_wrapped (config property v : value) :
  retrieveParametersValue config property = v →
  truthy v →
  has_property v "type" = false
  ∨ loose_eq_object (get v "type") = Some false
  ∨ (loose_eq_object (get v "type") = Some true ∧ has_property v "properties" = false) →
  retrieveSchema config property
  = Some (VObj {[ "type" := VStr "object"; "properties" := v ]}).
Proof.
  intros <- Ht H.
  rewrite retrieveSchema_located by done.
  rewrite is_canonical_object by auto using located_object.
  destruct (has_property _ "type"); [|done].
  destruct H as [H|[->|[-> ->]]]; done.
Qed.

Lemma non_canonical_schema_is_wrapped_witness :
  retrieveSchema facet_map_config VUndefined
  = Some (VObj {[ "type" := VStr "object"; "properties" := facet_map_config ]}).
Proof.
  apply (non_canonical_schema_is_wrapped facet_map_config VUndefined facet_map_config).
  - reflexivity.
  - exact I.
  - left. vm_compute. reflexivity.
Defined.

(** C5, as stated, fails: with the path left out the configuration is not
    tested with [Array.isArray], and an array configuration is located and
    wrapped. *)
Lemma array_config_is_located :
  located_value (VArr []) VUndefined = VArr []
  ∧ non_array_object (located_value (VArr []) VUndefined) = false
  ∧ retrieveParametersValue (VArr []) VUndefined = VArr []
  ∧ retrieveSchema (VArr []) VUndefined = Some (wrapped (VArr []))
  ∧ retrieveSchema (VArr []) VUndefined ≠ Some VNull.
Proof.
  repeat split; try (vm_compute; reflexivity).
  intros H. vm_compute in H. discriminate H.
Qed.

Lemma retrieveParametersValue_non_object_target (config : value) (p : string) :
  p ≠ "" → non_array_object (subParameters config p) = false →
  retrieveParametersValue config (VStr p) = VNull.
Proof.
  intros Hp H. rewrite retrieveParametersValue_path, H.
  destruct (is_object config); [|done].
  unfold nonempty. destruct (String.eqb_spec p ""); done.
Qed.

(** C5, amended.  The result is null whenever the configuration is not an
    object, whatever the path, and whenever a non-empty path locates a
    value that is not a non-array object. *)
Theorem non_object_target_gives_null (config property : value) :
  is_object config = false
  ∨ (∃ p, property = VStr p ∧ p ≠ ""
          ∧ non_array_object (subParameters config p) = false) →
  retrieveParametersValue config property = VNull
  ∧ retrieveSchema config property = Some VNull.
Proof.
  intros H.
  assert (retrieveParametersValue config property = VNull) as E.
  { destruct H as [H|(p & -> & Hp & H)].
    - by apply retrieveParametersValue_not_object.
    - by apply retrieveParametersValue_non_object_target. }
  split; [done|]. by apply retrieveSchema_null.
Qed.

Lemma non_object_target_gives_null_witness :
  retrieveSchema (VStr "schema") VUndefined = Some VNull
  ∧ retrieveSchema (VObj {[ "list" := VArr [VObj ∅] ]}) (VStr "list") = Some VNull.
Proof.
  split.
  - apply (non_object_target_gives_null (VStr "schema") VUndefined).
    left. reflexivity.
  - apply (non_object_target_gives_null (VObj {[ "list" := VArr [VObj ∅] ]}) (VStr "list")).
    right. exists "list". split; [reflexivity|]. split; [discriminate|].
    vm_compute. reflexivity.
Defined.

(** ** The extractor *)

Lemma buildValueToValidate_object (schema : value) (req : Request) :
  in_op "properties" schema = Some true →
  is_object (get schema "properties") →
  buildValueToValidate schema req
  = Some (VObj (foldl (copy_facet (get schema "properties") req) ∅ PARAMETERS_PROPS)).
Proof.
  intros Hin Ho. unfold buildValueToValidate. rewrite Hin. simpl.
  unfold is_object in Ho. rewrite (Is_true_true_1 _ Ho). done.
Qed.

Lemma copy_facets_lookup (properties : value) (req : Request)
    (names : list string) (r : gmap string value) (k : string) :
  foldl (copy_facet properties req) r names !! k
  = if bool_decide (k ∈ names) && has_property properties k
    then Some (facet req k)
    else r !! k.
Proof.
  revert r. induction names as [|name names IH]; intros r; [done|].
  cbn [foldl].
  - rewrite IH. unfold copy_facet.
    destruct (decide (k = name)) as [->|Hne].
    + rewrite (bool_decide_eq_true_2 (name ∈ name :: names)) by set_solver.
      destruct (has_property properties name); simpl.
      * rewrite lookup_insert_eq. by destruct (bool_decide _).
      * by rewrite andb_false_r.
    + assert (bool_decide (k ∈ name :: names) = bool_decide (k ∈ names)) as ->.
      { apply bool_decide_ext. set_solver. }
      destruct (has_property properties name); [|done].
      by rewrite lookup_insert_ne.
Qed.

Lemma facet_name_not_proto (k : string) :
  k ∈ PARAMETERS_PROPS → String.eqb k "__proto__" = false.
Proof.
  unfold PARAMETERS_PROPS. rewrite !elem_of_cons, elem_of_nil.
  intros [->|[->|[->|[->|[->|[->|[]]]]]]]; reflexivity.
Qed.

(** C1.  For a schema whose [properties] is an object, the extracted
    value is an object whose keys are exactly the recognised facet names
    that are keys of [properties], each bound to that facet of the
    request; when [properties] is a plain object with own keys [dom m],
    the key set is the intersection of the six names with [dom m]. *)
Theorem extracted_keys_are_requested_facets (schema : value) (req : Request) :
  in_op "properties" schema = Some true →
  is_object (get schema "properties") →
  ∃ r : gmap string value,
    buildValueToValidate schema req = Some (VObj r)
    ∧ (∀ k, k ∈ dom r ↔ k ∈ PARAMETERS_PROPS ∧ has_property (get schema "properties") k)
    ∧ (∀ k, k ∈ dom r → r !! k = Some (facet req k))
    ∧ (∀ m : gmap string value, get schema "properties" = VObj m →
         dom r = list_to_set PARAMETERS_PROPS ∩ dom m).
Proof.
  intros Hin Ho. eexists. split; [by apply buildValueToValidate_object|].
  set (r := foldl _ _ _).
  assert (∀ k, r !! k = if bool_decide (k ∈ PARAMETERS_PROPS)
                             && has_property (get schema "properties") k
                        then Some (facet req k) else None) as Hr.
  { intros k. unfold r. by rewrite copy_facets_lookup, lookup_empty. }
  assert (∀ k, k ∈ dom r ↔ k ∈ PARAMETERS_PROPS ∧ has_property (get schema "properties") k)
    as Hdom.
  { intros k. rewrite elem_of_dom, Hr.
    destruct (bool_decide_reflect (k ∈ PARAMETERS_PROPS)) as [Hk|Hk];
      destruct (has_property _ k); simpl;
      rewrite ?is_Some_alt; naive_solver. }
  split; [done|]. split.
  - intros k [Hk Hh]%Hdom. rewrite Hr.
    by rewrite (bool_decide_eq_true_2 _ Hk), (Is_true_true_1 _ Hh).
  - intros m Hm. apply set_eq. intros k.
    rewrite Hdom, elem_of_intersection, elem_of_list_to_set, elem_of_dom, Hm.
    split.
    + intros [Hk Hh]. split; [done|]. simpl in Hh.
      rewrite (facet_name_not_proto _ Hk), orb_false_r in Hh.
      by apply bool_decide_unpack in Hh.
    + intros [Hk Hh]. split; [done|]. simpl.
      by rewrite (bool_decide_eq_true_2 _ Hh).
Qed.

Lemma extracted_keys_are_requested_facets_witness :
  buildValueToValidate query_body_schema sample_request
  = Some (VObj {[ "body" := VObj {[ "name" := VStr "x" ]}; "query" := VObj ∅ ]})
  ∧ ∃ r : gmap string value,
      buildValueToValidate query_body_schema sample_request = Some (VObj r)
      ∧ (∀ k, k ∈ dom r ↔
              k ∈ PARAMETERS_PROPS ∧ has_property (get query_body_schema "properties") k)
      ∧ (∀ k, k ∈ dom r → r !! k = Some (facet sample_request k))
      ∧ (∀ m : gmap string value, get query_body_schema "properties" = VObj m →
           dom r = list_to_set PARAMETERS_PROPS ∩ dom m).
Proof.
  split; [vm_compute; reflexivity|].
  apply (extracted_keys_are_requested_facets query_body_schema sample_request).
  - reflexivity.
  - exact I.
Defined.

(** C9.  For a schema whose [properties] is absent, or present but not an
    object, the extracted value is the empty object. *)
Theorem extract_without_properties_is_empty
    (schema : value) (req : Request) (present : bool) :
  in_op "properties" schema = Some present →
  present = false ∨ is_object (get schema "properties") = false →
  buildValueToValidate schema req = Some (VObj ∅).
Proof.
  intros Hin H. unfold buildValueToValidate. rewrite Hin. simpl.
  destruct H as [->|H]; [done|].
  unfold is_object in H. rewrite <- andb_assoc, H, andb_false_r. done.
Qed.

Lemma extract_without_properties_is_empty_witness :
  buildValueToValidate (VObj {[ "type" := VStr "object" ]}) sample_request = Some (VObj ∅)
  ∧ buildValueToValidate (VObj {[ "properties" := VStr "body" ]}) sample_request
    = Some (VObj ∅)
  ∧ buildValueToValidate (VObj {[ "properties" := VNull ]}) sample_request
    = Some (VObj ∅).
Proof.
  split; [|split].
  - apply (extract_without_properties_is_empty _ _ false); [reflexivity|by left].
  - apply (extract_without_properties_is_empty _ _ true); [reflexivity|by right].
  - apply (extract_without_properties_is_empty _ _ true); [reflexivity|by right].
Defined.

(** ** The middleware *)

Section MiddlewareProperties.
Context `{Engine : AjvEngine}.

Lemma handler_without_schema (defaultAjv : ajv) (onerror schemaProperty : value)
    (req : Request) :
  retrieveParametersValue (meta_parameters req) schemaProperty = VNull →
  validatorJsonRequestHandler defaultAjv onerror schemaProperty req = [EvNext].
Proof.
  intros E. unfold validatorJsonRequestHandler.
  by rewrite (retrieveSchema_null _ _ E).
Qed.

(** C8, amended.  When the locator returns null - because the route has
    no configuration or one that is not an object, or a segment of the
    property path does not resolve, or a non-empty path leads to something
    that is not a non-array object - the handler calls [next()] and does
    nothing else: no engine is built, nothing is compiled or validated, no
    response is written. *)
Theorem no_schema_calls_next_only (defaultAjv : ajv) (onerror schemaProperty : value)
    (req : Request) :
  retrieveSchema (meta_parameters req) schemaProperty = Some VNull
  ∨ meta req = None
  ∨ is_object (meta_parameters req) = false
  ∨ (∃ p before segment after,
        schemaProperty = VStr p
        ∧ path_segments p = before ++ segment :: after
        ∧ is_object (fold_left reducer before (meta_parameters req))
          && has_property (fold_left reducer before (meta_parameters req)) segment = false)
  ∨ (∃ p, schemaProperty = VStr p ∧ p ≠ ""
          ∧ non_array_object (subParameters (meta_parameters req) p) = false) →
  validatorJsonRequestHandler defaultAjv onerror schemaProperty req = [EvNext].
Proof.
  intros [H|[H|[H|[(p & before & segment & after & -> & Hp & H)|(p & -> & Hp & H)]]]].
  - unfold validatorJsonRequestHandler. by rewrite H.
  - apply handler_without_schema. unfold meta_parameters. by rewrite H.
  - apply handler_without_schema. by apply retrieveParametersValue_not_object.
  - apply handler_without_schema. by eapply retrieveParametersValue_unresolved.
  - apply handler_without_schema. by apply retrieveParametersValue_non_object_target.
Qed.

(** In the embedding a property read gives [undefined] on every value
    that is not an object, so [?.] and [.] read the same. *)
Lemma optional_get_get (v : value) (k : string) : optional_get v k = get v k.
Proof. by destruct v. Qed.

(** C4.  When validation fails, the error payload [{ errors }] goes to
    the per-route [onerror] of the route configuration if that is a
    function; otherwise to the [onerror] given to the factory if that is a
    function; otherwise the response gets status 400 and the payload as
    JSON.  A value that is not a function is passed over at either level.
    The handler that runs is called with (payload, request, response,
    next), and nothing else follows. *)
Theorem invalid_request_is_reported
    (defaultAjv : ajv) (onerror schemaProperty : value) (req : Request) (m : Meta)
    (schema values plain errors : value) (engine : ajv)
    (validate : value → bool * value) :
  let route := parameters m in
  let options := get route "validatorJsonOptions" in
  let err := VObj {[ "errors" := errors ]} in
  let args := [AValue err; ARequest req; AResponse; ANext] in
  meta req = Some m →
  retrieveSchema route schemaProperty = Some schema →
  truthy schema →
  buildValueToValidate schema req = Some values →
  (if truthy options then new_Ajv options else Some defaultAjv) = Some engine →
  valueOf schema = Some plain →
  compile engine plain = Some validate →
  validate values = (false, errors) →
  validatorJsonRequestHandler defaultAjv onerror schemaProperty req
  = (if truthy options then [EvNewAjv options] else [])
    ++ [EvCompile plain; EvValidate values]
    ++ (if bool_decide (typeof (get route "onerror") = TFunction)
        then [EvCall (get route "onerror") args]
        else if bool_decide (typeof onerror = TFunction)
        then [EvCall onerror args]
        else [EvStatus 400; EvJson err]).
Proof.
  intros route options err args Hm Hs Ht Hv He Hp Hc Hr.
  pose proof (optional_get_get route "onerror") as Hon.
  pose proof (optional_get_get route "validatorJsonOptions") as Hopt.
  unfold validatorJsonRequestHandler, meta_parameters. rewrite Hm.
  fold route. rewrite Hs, (Is_true_true_1 _ Ht), Hv. cbn [negb].
  rewrite Hopt. fold options. rewrite Hp.
  assert (report onerror req route errors
          = if bool_decide (typeof (get route "onerror") = TFunction)
            then [EvCall (get route "onerror") args]
            else if bool_decide (typeof onerror = TFunction)
            then [EvCall onerror args]
            else [EvStatus 400; EvJson err]) as Hreport.
  { unfold report. rewrite Hon. fold err args.
    destruct (bool_decide (typeof (get route "onerror") = TFunction)); [done|].
    destruct (bool_decide_reflect (typeof onerror = TFunction)) as [Hf|Hf].
    - by destruct onerror.
    - by rewrite andb_false_r. }
  destruct (truthy options); cbv beta iota zeta.
  - by rewrite He, Hc, Hr, Hreport.
  - injection He as ->. by rewrite Hc, Hr, Hreport.
Qed.
(** Whatever the engine, an array configuration with the path left out
    reaches [compile]. *)
Lemma array_config_reaches_compile (defaultAjv : ajv) (onerror payload : value) :
  ∃ rest,
    validatorJsonRequestHandler defaultAjv onerror VUndefined (request_of (VArr []) payload)
    = EvCompile (wrapped (VArr [])) :: rest.
Proof.
  set (req := request_of (VArr []) payload).
  assert (retrieveSchema (meta_parameters req) VUndefined = Some (wrapped (VArr [])))
    as Hs by (vm_compute; reflexivity).
  assert (buildValueToValidate (wrapped (VArr [])) req = Some (VObj ∅))
    as Hv by (vm_compute; reflexivity).
  assert (valueOf (wrapped (VArr [])) = Some (wrapped (VArr [])))
    as Hp by (vm_compute; reflexivity).
  unfold validatorJsonRequestHandler. rewrite Hs. cbv beta iota.
  change (truthy (wrapped (VArr []))) with true. cbv beta iota.
  rewrite Hv, Hp.
  change (meta req) with (Some {| parameters := VArr [] |}). cbv beta iota zeta.
  change (truthy (optional_get (parameters {| parameters := VArr [] |})
                    "validatorJsonOptions")) with false.
  cbv beta iota.
  destruct (compile defaultAjv (wrapped (VArr []))) as [validate|]; [|by eexists].
  destruct (validate (VObj ∅)) as [valid errors]. by eexists.
Qed.
End MiddlewareProperties.

(** C8, as stated, fails: with the path left out an array configuration
    is not a non-array object, yet it is located and wrapped, and the
    handler compiles the schema and validates instead of calling
    [next()]. *)
Lemma array_config_is_validated :
  located_value (meta_parameters (request_of (VArr []) (VObj ∅))) VUndefined = VArr []
  ∧ non_array_object (VArr []) = false
  ∧ validatorJsonRequestHandler (Engine := name_engine) tt VUndefined VUndefined
      (request_of (VArr []) (VObj ∅))
    = [EvCompile (wrapped (VArr []));
       EvValidate (VObj ∅);
       EvStatus 400;
       EvJson (VObj {[ "errors" := required_error ]})]
  ∧ validatorJsonRequestHandler (Engine := name_engine) tt VUndefined VUndefined
      (request_of (VArr []) (VObj ∅))
    ≠ [EvNext].
Proof.
  repeat split; try (vm_compute; reflexivity).
  intros H. vm_compute in H. discriminate H.
Qed.

Lemma no_schema_calls_next_only_witness :
  validatorJsonRequestHandler (Engine := name_engine) tt VUndefined VUndefined sample_request
  = [EvNext]
  ∧ validatorJsonRequestHandler (Engine := name_engine) tt VUndefined (VStr "schema")
      (request_of body_schema (VObj ∅))
    = [EvNext].
Proof.
  split.
  - apply (no_schema_calls_next_only (Engine := name_engine)).
    right. left. reflexivity.
  - apply (no_schema_calls_next_only (Engine := name_engine)).
    do 3 right. left. exists "schema", [], "schema", [].
    split; [reflexivity|]. split; [reflexivity|]. vm_compute. reflexivity.
Defined.

Lemma invalid_request_is_reported_witness :
  validatorJsonRequestHandler (Engine := name_engine) tt (VFun "defaultHandler") VUndefined
    (request_of routed_config (VObj ∅))
  = [EvCompile (wrapped routed_config);
     EvValidate (VObj {[ "body" := VObj ∅ ]});
     EvCall (VFun "routeHandler")
       [AValue (VObj {[ "errors" := required_error ]});
        ARequest (request_of routed_config (VObj ∅)); AResponse; ANext]].
Proof.
  pose proof (invalid_request_is_reported (Engine := name_engine)
                tt (VFun "defaultHandler") VUndefined
                (request_of routed_config (VObj ∅))
                {| parameters := routed_config |}
                (wrapped routed_config) (VObj {[ "body" := VObj ∅ ]})
                (wrapped routed_config) required_error tt requires_name
                eq_refl) as H.
  cbv zeta in H.
  apply H; reflexivity || exact I.
Defined.

(** The scenarios of the documentation, run on [name_engine]. *)

Example valid_request_calls_next :
  validatorJsonRequestHandler (Engine := name_engine) tt VUndefined VUndefined
    (request_of body_schema (VObj {[ "name" := VStr "x" ]}))
  = [EvCompile (wrapped body_schema);
     EvValidate (VObj {[ "body" := VObj {[ "name" := VStr "x" ]} ]});
     EvNext].
Proof. vm_compute. reflexivity. Qed.

Example invalid_request_without_handler_gets_400 :
  validatorJsonRequestHandler (Engine := name_engine) tt VUndefined VUndefined
    (request_of body_schema (VObj ∅))
  = [EvCompile (wrapped body_schema);
     EvValidate (VObj {[ "body" := VObj ∅ ]});
     EvStatus 400;
     EvJson (VObj {[ "errors" := required_error ]})].
Proof. vm_compute. reflexivity. Qed.

Example invalid_request_goes_to_default_handler :
  validatorJsonRequestHandler (Engine := name_engine) tt (VFun "defaultHandler") VUndefined
    (request_of body_schema (VObj ∅))
  = [EvCompile (wrapped body_schema);
     EvValidate (VObj {[ "body" := VObj ∅ ]});
     EvCall (VFun "defaultHandler")
       [AValue (VObj {[ "errors" := required_error ]});
        ARequest (request_of body_schema (VObj ∅)); AResponse; ANext]].
Proof. vm_compute. reflexivity. Qed.

Example handlers_that_are_not_functions_are_passed_over :
  validatorJsonRequestHandler (Engine := name_engine) tt (VStr "handler") VUndefined
    (request_of (VObj {[ "body" := VObj ∅; "onerror" := VNum 1 ]}) (VObj ∅))
  = [EvCompile (wrapped (VObj {[ "body" := VObj ∅; "onerror" := VNum 1 ]}));
     EvValidate (VObj {[ "body" := VObj ∅ ]});
     EvStatus 400;
     EvJson (VObj {[ "errors" := required_error ]})].
Proof. vm_compute. reflexivity. Qed.

Example schema_property_isolates_the_schema :
  retrieveSchema
    (VObj {[ "schema" := VObj {[ "query" := VObj ∅ ]}; "body" := VObj ∅ ]})
    (VStr "schema")
  = Some (wrapped (VObj {[ "query" := VObj ∅ ]}))
  ∧ buildValueToValidate (wrapped (VObj {[ "query" := VObj ∅ ]})) sample_request
    = Some (VObj {[ "query" := VObj ∅ ]}).
Proof. vm_compute. done. Qed.

(** * Further properties *)

(** ** The path grammar *)

Lemma split_not_nil (sep : ascii) (s : string) : split sep s ≠ [].
Proof.
  induction s as [|c s IH]; simpl; [done|].
  destruct (Ascii.eqb c sep); [done|]. by destruct (split sep s).
Qed.

Lemma split_pieces_without_separator (sep : ascii) (s : string) :
  Forall (λ piece, contains sep piece = false) (split sep s).
Proof.
  induction s as [|c s IH]; simpl.
  - by repeat constructor.
  - destruct (Ascii.eqb c sep) eqn:Hc.
    + by constructor.
    + destruct (split sep s) as [|piece pieces].
      { constructor; [|done]. simpl. by rewrite Hc. }
      inversion IH as [|? ? Hp Hps]; subst. constructor; [|done].
      simpl. by rewrite Hc, Hp.
Qed.

(** X1.  No segment of a property path is empty and no segment holds a dot:
    a key of the configuration that is empty or holds a dot is never the
    key that a path segment names. *)
Theorem segments_are_nonempty_and_dotless (p segment : string) :
  segment ∈ path_segments p → segment ≠ "" ∧ contains "." segment = false.
Proof.
  unfold path_segments. rewrite list_elem_of_In, filter_In, <- list_elem_of_In.
  intros [Hin Hne]. split.
  - intros ->. done.
  - pose proof (split_pieces_without_separator "." (replace_brackets p)) as H.
    rewrite Forall_forall in H. by apply H.
Qed.

Lemma segments_are_nonempty_and_dotless_witness :
  "b" ∈ path_segments "a..b[c.d]" ∧ "b" ≠ "" ∧ contains "." "b" = false.
Proof.
  split.
  - vm_compute. do 1 constructor. constructor.
  - apply (segments_are_nonempty_and_dotless "a..b[c.d]" "b").
    vm_compute. do 1 constructor. constructor.
Defined.

Lemma replace_brackets_without_opening (p s : string) :
  contains "[" p = false → replace_brackets (p +:+ s) = p +:+ replace_brackets s.
Proof.
  induction p as [|c p IH]; simpl; [done|].
  intros [Hc Hp]%orb_false_elim.
  rewrite replace_brackets_copy by (simpl; by rewrite Hc).
  by rewrite IH.
Qed.

Lemma split_app_separator (sep : ascii) (a b : string) :
  split sep (a +:+ String sep b) = split sep a ++ split sep b.
Proof.
  induction a as [|c a IH]; simpl.
  - by rewrite Ascii.eqb_refl.
  - destruct (Ascii.eqb c sep); rewrite IH; [done|].
    pose proof (split_not_nil sep a). by destruct (split sep a).
Qed.

(** X2.  Paths compose: when [p] holds no opening bracket, the segments of
    [p.q] are those of [p] followed by those of [q], and walking [p.q]
    from a configuration is walking [q] from where [p] leads. *)
Theorem dotted_paths_compose (config : value) (p q : string) :
  contains "[" p = false →
  path_segments (p +:+ "." +:+ q) = path_segments p ++ path_segments q
  ∧ subParameters config (p +:+ "." +:+ q)
    = subParameters (subParameters config p) q.
Proof.
  intros Hp.
  assert (path_segments (p +:+ "." +:+ q) = path_segments p ++ path_segments q) as E.
  { unfold path_segments.
    change ("." +:+ q) with (String "." q).
    rewrite replace_brackets_without_opening by done.
    replace (replace_brackets p) with p.
    2:{ rewrite <- (string_app_nil_r p) at 2.
        rewrite replace_brackets_without_opening by done.
        by rewrite replace_brackets_nil, string_app_nil_r. }
    rewrite (replace_brackets_copy "." q) by done.
    by rewrite split_app_separator, List.filter_app. }
  split; [done|]. unfold subParameters. by rewrite E, fold_left_app.
Qed.

Lemma dotted_paths_compose_witness :
  path_segments "a.b[c]" = path_segments "a" ++ path_segments "b[c]"
  ∧ subParameters nested_config "a.b[c]"
    = subParameters (subParameters nested_config "a") "b[c]".
Proof.
  apply (dotted_paths_compose nested_config "a" "b[c]"). reflexivity.
Defined.

(** ** The locator *)

Lemma located_null_or_object (config property : value) :
  retrieveParametersValue config property = VNull
  ∨ is_object (retrieveParametersValue config property) = true.
Proof.
  unfold retrieveParametersValue. fold (is_object config).
  destruct (is_object config) eqn:Hc; [|by left].
  destruct property; auto.
  destruct (truthy (VStr s)); auto. cbv zeta.
  fold (non_array_object (subParameters config s)).
  destruct (non_array_object _) eqn:Hs; [|by left].
  right. unfold non_array_object in Hs.
  by apply andb_true_iff in Hs as [Hs _].
Qed.

Lemma is_canonical_wrapped (v : value) : is_canonical (wrapped v) = Some true.
Proof. reflexivity. Qed.

Lemma retrieveSchema_result (config property schema : value) :
  retrieveSchema config property = Some schema →
  (schema = VNull ∧ retrieveParametersValue config property = VNull)
  ∨ (is_object schema = true ∧ is_canonical schema = Some true
     ∧ (schema = retrieveParametersValue config property
        ∨ schema = wrapped (retrieveParametersValue config property))).
Proof.
  intros Hs.
  destruct (located_null_or_object config property) as [E|Ho].
  - rewrite (retrieveSchema_null _ _ E) in Hs. injection Hs as <-. by left.
  - right. assert (truthy (retrieveParametersValue config property)) as Ht.
    { unfold is_object in Ho. apply andb_true_iff in Ho as [Ho _].
      by apply Is_true_true_2. }
    rewrite retrieveSchema_located in Hs by done.
    destruct (is_canonical _) as [[]|] eqn:Hc; [| |done]; injection Hs as <-.
    + auto.
    + split; [done|]. split; [apply is_canonical_wrapped|]. auto.
Qed.

(** X3.  A schema that the locator returns is null or passes the test of
    line 56 itself: it is an object with a key [type] that is loosely equal
    to 'object' and a key [properties]. *)
Theorem located_schema_has_type_and_properties (config property schema : value) :
  retrieveSchema config property = Some schema →
  truthy schema →
  typeof schema = TObject
  ∧ has_property schema "type"
  ∧ loose_eq_object (get schema "type") = Some true
  ∧ has_property schema "properties".
Proof.
  intros Hs Ht.
  destruct (retrieveSchema_result _ _ _ Hs) as [[-> _]|(Ho & Hc & _)]; [done|].
  unfold is_object in Ho. apply andb_true_iff in Ho as [_ Ho%bool_decide_eq_true].
  rewrite is_canonical_object in Hc by done.
  destruct (has_property schema "type"); [|done].
  destruct (loose_eq_object _) as [[]|]; try done.
  injection Hc as ->. done.
Qed.

Lemma located_schema_has_type_and_properties_witness :
  retrieveSchema facet_map_config VUndefined = Some (wrapped facet_map_config)
  ∧ typeof (wrapped facet_map_config) = TObject
  ∧ has_property (wrapped facet_map_config) "type"
  ∧ loose_eq_object (get (wrapped facet_map_config) "type") = Some true
  ∧ has_property (wrapped facet_map_config) "properties".
Proof.
  split; [reflexivity|].
  apply (located_schema_has_type_and_properties facet_map_config VUndefined).
  - reflexivity.
  - exact I.
Defined.

(** X4.  Locating is idempotent: a schema that the locator returns, given
    back as a configuration without a path, is returned as it is. *)
Theorem locating_a_located_schema (config property schema : value) :
  retrieveSchema config property = Some schema →
  retrieveSchema schema VUndefined = Some schema.
Proof.
  intros Hs.
  destruct (retrieveSchema_result _ _ _ Hs) as [[-> _]|(Ho & Hc & _)]; [done|].
  assert (retrieveParametersValue schema VUndefined = schema) as E.
  { rewrite retrieveParametersValue_no_path by done. by rewrite Ho. }
  assert (truthy schema) as Ht.
  { unfold is_object in Ho. apply andb_true_iff in Ho as [Ho _].
    by apply Is_true_true_2. }
  rewrite retrieveSchema_located by (by rewrite E).
  by rewrite E, Hc.
Qed.

Lemma locating_a_located_schema_witness :
  retrieveSchema (VObj {[ "schema" := facet_map_config ]}) (VStr "schema")
  = Some (wrapped facet_map_config)
  ∧ retrieveSchema (wrapped facet_map_config) VUndefined
    = Some (wrapped facet_map_config).
Proof.
  split; [reflexivity|].
  apply (locating_a_located_schema
           (VObj {[ "schema" := facet_map_config ]}) (VStr "schema")).
  reflexivity.
Defined.

(** X5.  The locator returns null exactly when [retrieveParametersValue]
    does, and with the path left out or empty that is exactly when the
    configuration is not an object.  For an object configuration, the
    empty object included, the result is never null: it is the
    configuration itself when the test of line 56 holds, its wrapping when
    the test fails, and no result when the comparison of that test raises. *)
Theorem null_schema_characterised (config property : value) :
  (retrieveSchema config property = Some VNull
   ↔ retrieveParametersValue config property = VNull)
  ∧ (retrieveSchema config VUndefined = Some VNull ↔ is_object config = false)
  ∧ (retrieveSchema config (VStr "") = Some VNull ↔ is_object config = false)
  ∧ retrieveSchema config VUndefined
    = (if is_object config then
         match is_canonical config with
         | Some true => Some config
         | Some false => Some (wrapped config)
         | None => None
         end
       else Some VNull).
Proof.
  assert (∀ property', retrieveSchema config property' = Some VNull
                       ↔ retrieveParametersValue config property' = VNull) as H.
  { intros property'. split; [|apply retrieveSchema_null].
    intros Hs. by destruct (retrieveSchema_result _ _ _ Hs) as [[_ E]|(Ho & _)]. }
  split; [apply H|].
  assert (retrieveParametersValue config VUndefined = VNull ↔ is_object config = false)
    as Hn.
  { rewrite retrieveParametersValue_no_path by done.
    destruct (is_object config) eqn:Ho; [|done].
    split; [|done]. intros ->. done. }
  split; [by rewrite H|]. split; [rewrite H; exact Hn|].
  destruct (is_object config) eqn:Ho.
  - assert (retrieveParametersValue config VUndefined = config) as E.
    { rewrite retrieveParametersValue_no_path by done. by rewrite Ho. }
    assert (truthy config) as Ht.
    { unfold is_object in Ho. apply andb_true_iff in Ho as [Ho _].
      by apply Is_true_true_2. }
    rewrite retrieveSchema_located by (by rewrite E). by rewrite E.
  - by apply retrieveSchema_null, retrieveParametersValue_not_object.
Qed.

(** X6.  A path that is not empty but has no segment, such as "." or "[]",
    locates the configuration itself, and unlike the empty path it rejects
    a configuration that is an array. *)
Theorem path_without_segments_locates_config (config : value) (p : string) :
  p ≠ "" → path_segments p = [] →
  retrieveParametersValue config (VStr p)
  = if non_array_object config then config else VNull.
Proof.
  intros Hp Hs. rewrite retrieveParametersValue_path.
  unfold subParameters. rewrite Hs. simpl.
  unfold nonempty. destruct (String.eqb_spec p ""); [done|]. simpl.
  unfold non_array_object. fold (is_object config).
  by destruct (is_object config).
Qed.

Lemma path_without_segments_locates_config_witness :
  retrieveParametersValue facet_map_config (VStr "[].") = facet_map_config
  ∧ retrieveParametersValue (VArr []) (VStr ".") = VNull.
Proof.
  split.
  - apply (path_without_segments_locates_config facet_map_config "[]."); done.
  - apply (path_without_segments_locates_config (VArr []) "."); done.
Defined.

(** X7.  A schema kept under a property of the configuration is located as
    if that property were the whole configuration: when a non-empty path
    leads from an object configuration to a non-array object, locating with
    the path gives what locating that object without a path gives. *)
Theorem schema_under_a_property (config : value) (p : string) :
  is_object config = true → p ≠ "" →
  non_array_object (subParameters config p) = true →
  retrieveSchema config (VStr p) = retrieveSchema (subParameters config p) VUndefined.
Proof.
  intros Hc Hp Hs.
  assert (is_object (subParameters config p) = true) as Ho.
  { unfold non_array_object in Hs. by apply andb_true_iff in Hs as [Hs _]. }
  assert (retrieveParametersValue config (VStr p)
          = retrieveParametersValue (subParameters config p) VUndefined) as E.
  { rewrite retrieveParametersValue_path, Hc, Hs.
    rewrite retrieveParametersValue_no_path by done. rewrite Ho.
    unfold nonempty. by destruct (String.eqb_spec p ""). }
  unfold retrieveSchema. by rewrite E.
Qed.

Lemma schema_under_a_property_witness :
  subParameters (VObj {[ "schema" := canonical_config; "body" := VNum 1 ]}) "schema"
  = canonical_config
  ∧ retrieveSchema (VObj {[ "schema" := canonical_config; "body" := VNum 1 ]}) (VStr "schema")
    = retrieveSchema
        (subParameters (VObj {[ "schema" := canonical_config; "body" := VNum 1 ]}) "schema")
        VUndefined.
Proof.
  split; [vm_compute; reflexivity|].
  apply (schema_under_a_property
           (VObj {[ "schema" := canonical_config; "body" := VNum 1 ]}) "schema").
  - reflexivity.
  - discriminate.
  - vm_compute. reflexivity.
Defined.

(** ** The extractor *)

Lemma extracted_lookup (schema : value) (req : Request) :
  in_op "properties" schema = Some true →
  is_object (get schema "properties") = true →
  ∃ r : gmap string value,
    buildValueToValidate schema req = Some (VObj r)
    ∧ ∀ k, r !! k = if bool_decide (k ∈ PARAMETERS_PROPS)
                         && has_property (get schema "properties") k
                    then Some (facet req k) else None.
Proof.
  intros Hin Ho. eexists. split.
  - apply buildValueToValidate_object; [done|]. by apply Is_true_true_2.
  - intros k. by rewrite copy_facets_lookup, lookup_empty.
Qed.

(** X8.  Whatever the schema, the extracted value is an object whose keys
    are among the six facet names. *)
Theorem extracted_keys_within_facets (schema : value) (req : Request) (out : value) :
  buildValueToValidate schema req = Some out →
  ∃ r : gmap string value, out = VObj r ∧ ∀ k, k ∈ dom r → k ∈ PARAMETERS_PROPS.
Proof.
  intros Hb.
  destruct (in_op "properties" schema) as [[]|] eqn:Hin.
  - destruct (is_object (get schema "properties")) eqn:Ho.
    + destruct (extracted_lookup schema req Hin Ho) as (r & Hr & Hl).
      rewrite Hr in Hb. injection Hb as <-. exists r. split; [done|].
      intros k [x Hx]%elem_of_dom. rewrite Hl in Hx.
      destruct (bool_decide_reflect (k ∈ PARAMETERS_PROPS)); done.
    + unfold buildValueToValidate in Hb. rewrite Hin in Hb. simpl in Hb.
      unfold is_object in Ho. rewrite Ho in Hb. injection Hb as <-.
      exists ∅. split; [done|]. intros k. by rewrite dom_empty_L.
  - unfold buildValueToValidate in Hb. rewrite Hin in Hb. simpl in Hb.
    injection Hb as <-. exists ∅. split; [done|]. intros k. by rewrite dom_empty_L.
  - unfold buildValueToValidate in Hb. by rewrite Hin in Hb.
Qed.

Lemma extracted_keys_within_facets_witness :
  ∃ r : gmap string value,
    VObj {[ "body" := VObj {[ "name" := VStr "x" ]}; "query" := VObj ∅ ]} = VObj r
    ∧ ∀ k, k ∈ dom r → k ∈ PARAMETERS_PROPS.
Proof.
  apply (extracted_keys_within_facets query_body_schema sample_request).
  vm_compute. reflexivity.
Defined.

(** X9.  On a schema that the locator returns the extraction does not
    raise: the [in] of line 74 is applied to an object. *)
Theorem extraction_of_located_schema
    (config property schema : value) (req : Request) :
  retrieveSchema config property = Some schema →
  truthy schema →
  ∃ r : gmap string value, buildValueToValidate schema req = Some (VObj r).
Proof.
  intros Hs Ht.
  destruct (retrieveSchema_result _ _ _ Hs) as [[-> _]|(Ho & _)]; [done|].
  unfold is_object in Ho. apply andb_true_iff in Ho as [_ Ho%bool_decide_eq_true].
  unfold buildValueToValidate.
  rewrite (in_op_object _ _ Ht Ho). simpl.
  destruct (_ && _ && _); eauto.
Qed.

Lemma extraction_of_located_schema_witness :
  ∃ r : gmap string value,
    buildValueToValidate (wrapped facet_map_config) sample_request = Some (VObj r).
Proof.
  apply (extraction_of_located_schema facet_map_config VUndefined).
  - reflexivity.
  - exact I.
Defined.

(** X10.  For a bare facet map the extracted keys are the facet names that
    are keys of the map, whatever their values: the map is wrapped whole,
    the selection of lines 57-62 is not used, and a facet whose entry is
    not an object is extracted like the others. *)
Theorem bare_facet_map_extraction (config property v : value) (req : Request) :
  retrieveParametersValue config property = v →
  truthy v →
  is_canonical v = Some false →
  ∃ r : gmap string value,
    retrieveSchema config property = Some (wrapped v)
    ∧ buildValueToValidate (wrapped v) req = Some (VObj r)
    ∧ ∀ k, r !! k = if bool_decide (k ∈ PARAMETERS_PROPS) && has_property v k
                    then Some (facet req k) else None.
Proof.
  intros <- Ht Hc.
  set (v := retrieveParametersValue config property) in *.
  assert (is_object v = true) as Ho.
  { unfold is_object. rewrite (Is_true_true_1 _ Ht).
    by rewrite (bool_decide_eq_true_2 _ (located_object _ _ Ht)). }
  destruct (extracted_lookup (wrapped v) req eq_refl Ho) as (r & Hr & Hl).
  exists r. split; [|done].
  unfold v. rewrite retrieveSchema_located by done. fold v. by rewrite Hc.
Qed.

Lemma bare_facet_map_extraction_witness :
  ∃ r : gmap string value,
    retrieveSchema loose_facet_map VUndefined = Some (wrapped loose_facet_map)
    ∧ buildValueToValidate (wrapped loose_facet_map) sample_request = Some (VObj r)
    ∧ ∀ k, r !! k = if bool_decide (k ∈ PARAMETERS_PROPS) && has_property loose_facet_map k
                    then Some (facet sample_request k) else None.
Proof.
  apply (bare_facet_map_extraction loose_facet_map VUndefined loose_facet_map).
  - reflexivity.
  - exact I.
  - reflexivity.
Defined.

Example facet_with_a_number_is_extracted :
  buildValueToValidate (wrapped loose_facet_map) sample_request
  = Some (VObj {[ "body" := VObj {[ "name" := VStr "x" ]}; "query" := VObj ∅ ]}).
Proof. vm_compute. reflexivity. Qed.

(** ** The middleware *)

Section MiddlewareFurther.
Context `{Engine : AjvEngine}.

Lemma report_ending (onerror : value) (req : Request) (route errors : value) :
  ending req (report onerror req route errors).
Proof.
  unfold report.
  destruct (bool_decide_reflect (typeof (optional_get route "onerror") = TFunction))
    as [Hr|Hr].
  - apply ending_handler. by destruct route.
  - destruct (truthy onerror && bool_decide (typeof onerror = TFunction)) eqn:Ho.
    + apply ending_handler.
      by apply andb_true_iff in Ho as [_ Ho%bool_decide_eq_true].
    + apply ending_400.
Qed.

Lemma report_without_next (onerror : value) (req : Request) (route errors : value) :
  EvNext ∉ report onerror req route errors.
Proof.
  unfold report. repeat case_match; set_solver.
Qed.

(** X11.  When the located schema compiles and the extracted values are
    valid, the handler calls [next()] after the validation and does nothing
    else: no error handler is called and no response is written. *)
Theorem valid_request_continues
    (defaultAjv : ajv) (onerror schemaProperty : value) (req : Request) (m : Meta)
    (schema values plain errors : value) (engine : ajv)
    (validate : value → bool * value) :
  let route := parameters m in
  let options := get route "validatorJsonOptions" in
  meta req = Some m →
  retrieveSchema route schemaProperty = Some schema →
  truthy schema →
  buildValueToValidate schema req = Some values →
  (if truthy options then new_Ajv options else Some defaultAjv) = Some engine →
  valueOf schema = Some plain →
  compile engine plain = Some validate →
  validate values = (true, errors) →
  validatorJsonRequestHandler defaultAjv onerror schemaProperty req
  = (if truthy options then [EvNewAjv options] else [])
    ++ [EvCompile plain; EvValidate values; EvNext].
Proof.
  intros route options Hm Hs Ht Hv He Hp Hc Hr.
  unfold validatorJsonRequestHandler, meta_parameters. rewrite Hm.
  fold route. rewrite Hs, (Is_true_true_1 _ Ht), Hv. cbn [negb].
  replace (optional_get route "validatorJsonOptions") with options
    by (by destruct route).
  rewrite Hp.
  destruct (truthy options); cbv beta iota zeta.
  - by rewrite He, Hc, Hr.
  - injection He as ->. by rewrite Hc, Hr.
Qed.

(** X12.  When the route configuration carries engine options, the engine
    of the request is built from them and the engine of the factory plays
    no part: the run is the same whatever the default engine is. *)
Theorem route_options_replace_default_engine
    (default1 default2 : ajv) (onerror schemaProperty : value) (req : Request) :
  truthy (get (meta_parameters req) "validatorJsonOptions") →
  validatorJsonRequestHandler default1 onerror schemaProperty req
  = validatorJsonRequestHandler default2 onerror schemaProperty req.
Proof.
  intros Ho. unfold validatorJsonRequestHandler.
  destruct (retrieveSchema _ _) as [schema|]; [|done].
  destruct (negb (truthy schema)); [done|].
  destruct (buildValueToValidate schema req) as [values|]; [|done].
  unfold meta_parameters in Ho.
  destruct (meta req) as [m|]; [|done].
  replace (optional_get (parameters m) "validatorJsonOptions")
    with (get (parameters m) "validatorJsonOptions")
    by (by destruct (parameters m)).
  by rewrite (Is_true_true_1 _ Ho).
Qed.

Ltac split_trace :=
  lazymatch goal with
  | |- ∃ pre post, ?a :: ?b :: ?c :: report ?o ?r ?rt ?e = _ ∧ _ =>
      exists [a; b; c], (report o r rt e)
  | |- ∃ pre post, ?a :: ?b :: report ?o ?r ?rt ?e = _ ∧ _ =>
      exists [a; b], (report o r rt e)
  | |- ∃ pre post, [?a; ?b; ?c; ?d] = _ ∧ _ => exists [a; b; c], [d]
  | |- ∃ pre post, [?a; ?b; ?c] = _ ∧ _ => exists [a; b], [c]
  | |- ∃ pre post, [?a; ?b] = _ ∧ _ => exists [a], [b]
  | |- ∃ pre post, [?a] = _ ∧ _ => exists [], [a]
  end.

Lemma ending_without_engine_event (req : Request) (post : list event) (e : event) :
  ending req post → e ∈ post → engine_event e = false.
Proof.
  intros Hpost Hin. destruct Hpost; set_unfold; naive_solver.
Qed.

Lemma handler_shape (defaultAjv : ajv) (onerror schemaProperty : value) (req : Request) :
  ∃ pre post,
    validatorJsonRequestHandler defaultAjv onerror schemaProperty req = pre ++ post
    ∧ ending req post
    ∧ Forall (λ e, engine_event e = true) pre
    ∧ ∀ options, EvNewAjv options ∈ pre →
        options = get (meta_parameters req) "validatorJsonOptions"
        ∧ truthy options = true.
Proof.
  unfold validatorJsonRequestHandler, meta_parameters.
  destruct (retrieveSchema _ _) as [schema|];
    [|split_trace; set_solver by constructor].
  destruct (negb (truthy schema)); [split_trace; set_solver by constructor|].
  destruct (buildValueToValidate schema req) as [values|];
    [|split_trace; set_solver by constructor].
  destruct (meta req) as [m|]; [|split_trace; set_solver by constructor].
  replace (optional_get (parameters m) "validatorJsonOptions")
    with (get (parameters m) "validatorJsonOptions")
    by (by destruct (parameters m)).
  destruct (truthy (get (parameters m) "validatorJsonOptions")) eqn:Ho;
    cbv beta iota zeta; repeat case_match; simplify_eq; simpl;
    split_trace;
    (split; [reflexivity|]);
    (split; [first [apply report_ending | constructor]|]);
    (split; [by repeat constructor|]);
    intros options; set_unfold; naive_solver.
Qed.

(** X13.  Every run of the handler is a sequence of engine events (an
    engine built, a schema compiled, a value validated) followed by one
    ending: [next()] alone, one call of an error handler that is a function
    with (payload, request, response, next), the response 400 with the
    payload as JSON, or an exception.  So [next()] is never called together
    with an error handler or a response, and a response is only written
    with status 400. *)
Theorem handler_runs_engine_then_ends
    (defaultAjv : ajv) (onerror schemaProperty : value) (req : Request) :
  ∃ pre post,
    validatorJsonRequestHandler defaultAjv onerror schemaProperty req = pre ++ post
    ∧ Forall (λ e, engine_event e = true) pre
    ∧ ending req post.
Proof.
  destruct (handler_shape defaultAjv onerror schemaProperty req)
    as (pre & post & E & Hpost & Hpre & _).
  by exists pre, post.
Qed.

(** X14.  An engine is built during a request only from the truthy
    [validatorJsonOptions] of the route configuration. *)
Theorem engine_is_built_from_route_options_only
    (defaultAjv : ajv) (onerror schemaProperty : value) (req : Request) (options : value) :
  EvNewAjv options ∈ validatorJsonRequestHandler defaultAjv onerror schemaProperty req →
  options = get (meta_parameters req) "validatorJsonOptions" ∧ truthy options = true.
Proof.
  destruct (handler_shape defaultAjv onerror schemaProperty req)
    as (pre & post & -> & Hpost & _ & Hnew).
  intros [Hin|Hin]%elem_of_app; [by apply Hnew|].
  by pose proof (ending_without_engine_event _ _ _ Hpost Hin).
Qed.

(** X15.  The error handler given to the factory plays no part in a request
    that is passed on: when a run calls [next()], the run is the same
    whatever that handler is. *)
Theorem passed_request_ignores_default_handler
    (defaultAjv : ajv) (onerror1 onerror2 schemaProperty : value) (req : Request) :
  EvNext ∈ validatorJsonRequestHandler defaultAjv onerror1 schemaProperty req →
  validatorJsonRequestHandler defaultAjv onerror2 schemaProperty req
  = validatorJsonRequestHandler defaultAjv onerror1 schemaProperty req.
Proof.
  unfold validatorJsonRequestHandler.
  repeat case_match; try done; simplify_eq.
  all: intros Hin; exfalso.
  all: rewrite !elem_of_app, !elem_of_cons, ?elem_of_nil in Hin.
  all: match goal with
       | _ : context [report ?handler ?request ?route ?errors] |- _ =>
           pose proof (report_without_next handler request route errors)
       end.
  all: naive_solver.
Qed.
End MiddlewareFurther.

Lemma valid_request_continues_witness :
  validatorJsonRequestHandler (Engine := name_engine) tt (VFun "defaultHandler") VUndefined
    (request_of routed_config named_body)
  = [EvCompile (wrapped routed_config);
     EvValidate (VObj {[ "body" := named_body ]});
     EvNext].
Proof.
  pose proof (valid_request_continues (Engine := name_engine)
                tt (VFun "defaultHandler") VUndefined
                (request_of routed_config named_body)
                {| parameters := routed_config |}
                (wrapped routed_config) (VObj {[ "body" := named_body ]})
                (wrapped routed_config) VNull tt requires_name
                eq_refl) as H.
  cbv zeta in H.
  apply H; reflexivity || exact I.
Defined.

Lemma route_options_replace_default_engine_witness :
  validatorJsonRequestHandler (Engine := option_engine) true VUndefined VUndefined
    (request_of strict_config (VObj ∅))
  = validatorJsonRequestHandler (Engine := option_engine) false VUndefined VUndefined
      (request_of strict_config (VObj ∅)).
Proof.
  apply (route_options_replace_default_engine (Engine := option_engine)).
  exact I.
Defined.

(** Without options in the route configuration the engine of the factory
    decides. *)
Example default_engine_decides_without_route_options :
  validatorJsonRequestHandler (Engine := option_engine) true VUndefined VUndefined
    (request_of body_schema (VObj ∅))
  = [EvCompile (wrapped body_schema); EvValidate (VObj {[ "body" := VObj ∅ ]});
     EvStatus 400; EvJson (VObj {[ "errors" := required_error ]})]
  ∧ validatorJsonRequestHandler (Engine := option_engine) false VUndefined VUndefined
      (request_of body_schema (VObj ∅))
    = [EvCompile (wrapped body_schema); EvValidate (VObj {[ "body" := VObj ∅ ]});
       EvNext].
Proof. vm_compute. done. Qed.

Lemma engine_is_built_from_route_options_only_witness :
  EvNewAjv (VObj {[ "strict" := VBool true ]})
    ∈ validatorJsonRequestHandler (Engine := option_engine) false VUndefined VUndefined
        (request_of strict_config (VObj ∅))
  ∧ VObj {[ "strict" := VBool true ]}
    = get (meta_parameters (request_of strict_config (VObj ∅))) "validatorJsonOptions"
  ∧ truthy (VObj {[ "strict" := VBool true ]}) = true.
Proof.
  assert (EvNewAjv (VObj {[ "strict" := VBool true ]})
            ∈ validatorJsonRequestHandler (Engine := option_engine) false
                VUndefined VUndefined (request_of strict_config (VObj ∅))) as Hin.
  { vm_compute. constructor. }
  split; [exact Hin|].
  exact (engine_is_built_from_route_options_only (Engine := option_engine)
           false VUndefined VUndefined (request_of strict_config (VObj ∅)) _ Hin).
Defined.

Lemma passed_request_ignores_default_handler_witness :
  validatorJsonRequestHandler (Engine := name_engine) tt VUndefined VUndefined
    (request_of body_schema named_body)
  = validatorJsonRequestHandler (Engine := name_engine) tt (VFun "defaultHandler") VUndefined
      (request_of body_schema named_body).
Proof.
  apply (passed_request_ignores_default_handler (Engine := name_engine)).
  vm_compute. do 2 apply list_elem_of_further. constructor.
Defined.
